(** * HomepageFeatures: the homepage feature cards

    A shallow embedding of [src/components/HomepageFeatures/index.tsx]:
    the [FeatureItem] record, the [FeatureList] literal, the card renderer
    [Feature] and the section composer [HomepageFeatures], together with
    the element trees that their JSX denotes. *)

From stdpp Require Import base option list strings.

Local Open Scope string_scope.

#[local] Set Warnings "-register-all".

(** ** Element trees *)

(** The icon of a card is a component obtained from an asset import
    ([require('@site/static/img/....svg').default]); only its identity
    matters here, so it is represented by the path of the asset. *)
Inductive SvgComponent : Type :=
| SvgAsset (path : string).

(** [type FeatureItem = { title; Svg; description; linkTo }].  The record
    is parametric in the type of elements because a description is itself
    an element ([JSX.Element]). *)
Record FeatureItemOf (E : Type) : Type := mkFeatureItem {
  title : string;
  Svg : SvgComponent;
  description : E;
  linkTo : string
}.
Arguments mkFeatureItem {E} _ _ _ _.
Arguments title {E} _.
Arguments Svg {E} _.
Arguments description {E} _.
Arguments linkTo {E} _.

(** What a JSX expression of the module evaluates to.  Host elements
    ([div], [section], [p]) carry their tag and optional [className];
    [Heading] and [Link] are the theme components, kept as nodes of their
    own with the props that the module passes to them; [FeatureElem] is an
    element whose type is the module's own [Feature] component, holding
    its [key] and its props (it is created by JSX, not yet called). *)
Inductive Node : Type :=
| Text (s : string)
| Fragment (children : list Node)
| Host (tag : string) (className : option string) (children : list Node)
| Heading (as_ : string) (children : list Node)
| Link (className : string) (to : string) (children : list Node)
| SvgElem (icon : SvgComponent) (className : string) (role : string)
| FeatureElem (key : option nat) (props : FeatureItemOf Node).

Definition FeatureItem : Type := FeatureItemOf Node.

(** [styles] is the object imported from [./styles.module.css]; the two
    class names that the module reads from it. *)
Record Styles : Type := mkStyles {
  featureSvg : string;
  features : string
}.

(** [clsx] on string arguments: the non-empty ones, separated by a space. *)
Definition clsx (args : list string) : string :=
  String.concat " " (filter (λ s, s ≠ "") args).

(** ** Queries on element trees *)

Definition children (n : Node) : list Node :=
  match n with
  | Fragment cs | Host _ _ cs | Heading _ cs | Link _ _ cs => cs
  | Text _ | SvgElem _ _ _ | FeatureElem _ _ => []
  end.

Definition classNameOf (n : Node) : option string :=
  match n with
  | Host _ c _ => c
  | Link c _ _ | SvgElem _ c _ => Some c
  | _ => None
  end.

(** The class list of a node: the space-separated tokens of [className]. *)
Definition classList (n : Node) : list string :=
  from_option String.words [] (classNameOf n).

Definition hasClass (c : string) (n : Node) : bool :=
  bool_decide (c ∈ classList n).

(** The text of a subtree, in document order. *)
Fixpoint textContent (n : Node) : string :=
  match n with
  | Text s => s
  | Fragment cs | Host _ _ cs | Heading _ cs | Link _ _ cs =>
      String.concat "" (textContent <$> cs)
  | SvgElem _ _ _ | FeatureElem _ _ => ""
  end.

(** The elements of the module's own component among the nodes of a tree,
    in document order.  The nodes of a tree are the tree and the nodes of
    its children; the props of an element are not nodes of the tree. *)
Fixpoint feature_elements (n : Node) : list Node :=
  match n with
  | Fragment cs | Host _ _ cs | Heading _ cs | Link _ _ cs =>
      mjoin (feature_elements <$> cs)
  | FeatureElem _ _ => [n]
  | Text _ | SvgElem _ _ _ => []
  end.

(** A tree is expanded when no element of the module's own component is
    left in it, neither among its nodes nor, below such an element, in a
    description. *)
Fixpoint expanded (n : Node) : bool :=
  match n with
  | Fragment cs | Host _ _ cs | Heading _ cs | Link _ _ cs =>
      forallb expanded cs
  | Text _ | SvgElem _ _ _ => true
  | FeatureElem _ _ => false
  end.

(** Structural induction on element trees, through the lists of children
    and through the description of the props. *)
Section Node_induction.

Variable P : Node → Prop.

Hypothesis P_Text : ∀ s, P (Text s).
Hypothesis P_Fragment : ∀ cs, Forall P cs → P (Fragment cs).
Hypothesis P_Host : ∀ tag c cs, Forall P cs → P (Host tag c cs).
Hypothesis P_Heading : ∀ level cs, Forall P cs → P (Heading level cs).
Hypothesis P_Link : ∀ c to cs, Forall P cs → P (Link c to cs).
Hypothesis P_SvgElem : ∀ icon c role, P (SvgElem icon c role).
Hypothesis P_FeatureElem :
  ∀ key props, P (description props) → P (FeatureElem key props).

Fixpoint Node_children_ind (n : Node) : P n :=
  let all :=
    fix all (cs : list Node) : Forall P cs :=
      match cs with
      | [] => Forall_nil_2 P
      | c :: cs' => Forall_cons_2 P c cs' (Node_children_ind c) (all cs')
      end in
  match n with
  | Text s => P_Text s
  | Fragment cs => P_Fragment cs (all cs)
  | Host tag c cs => P_Host tag c cs (all cs)
  | Heading level cs => P_Heading level cs (all cs)
  | Link c to cs => P_Link c to cs (all cs)
  | SvgElem icon c role => P_SvgElem icon c role
  | FeatureElem key (mkFeatureItem t icon d l) =>
      P_FeatureElem key (mkFeatureItem t icon d l) (Node_children_ind d)
  end.

End Node_induction.

(** ** The module *)

(** The array object that the constant [FeatureList] is bound to lives in
    the module's scope for as long as the page does.  Functions of the
    module are state transformers over that scope, so that reading the
    array, and not writing it, is visible in their definitions. *)
Record Scope : Type := mkScope {
  FeatureList_array : list FeatureItem
}.

Definition M (A : Type) : Type := Scope → A * Scope.

Definition ret {A} (a : A) : M A := λ σ, (a, σ).

Definition bind {A B} (m : M A) (k : A → M B) : M B :=
  λ σ, let '(a, σ') := m σ in k a σ'.

Notation "'let!' x ':=' m 'in' k" := (bind m (λ x, k))
  (at level 10, x name, m at level 100, k at level 200).

(** Evaluating the identifier [FeatureList]. *)
Definition read_FeatureList : M (list FeatureItem) :=
  λ σ, (FeatureList_array σ, σ).

(** [Array.prototype.map]: calls [f] with each entry and its index, in
    ascending index order, and collects the results in a fresh array. *)
Definition Array_map {A B} (f : A → nat → B) (a : list A) : list B :=
  imap (λ idx x, f x idx) a.

Definition azure_aks_color : SvgComponent :=
  SvgAsset "@site/static/img/azure-aks-color.svg".

(** [const FeatureList: FeatureItem[] = [ ... ]]. *)
Definition FeatureList : list FeatureItem :=
  [ mkFeatureItem
      "Workload Identities in AKS"
      azure_aks_color
      (Fragment
         [Text "Learn how to setup your cluster for using Azure Workload Identity"])
      "/docs/aks/aks-workload-identity";
    mkFeatureItem
      "Scaling pods and nodes in AKS"
      azure_aks_color
      (Fragment
         [Text "Learn how to scale your AKS resources using KEDA and Cluster Autoscaler"])
      "/docs/aks/aks-scaling" ].

(** The scope once the module has been evaluated. *)
Definition module_load : Scope := mkScope FeatureList.

Section Components.

Variable styles : Styles.

(** [function Feature({title, Svg, description, linkTo}: FeatureItem)]. *)
Definition Feature (props : FeatureItem) : Node :=
  let '(mkFeatureItem title Svg description linkTo) := props in
  Host "div" (Some (clsx ["col col--4"]))
    [ Host "div" (Some "text--center")
        [ SvgElem Svg (featureSvg styles) "img" ];
      Host "div" (Some "text--center padding-horiz--md")
        [ Heading "h3" [Text title];
          Host "p" None [description];
          Link "button button--secondary button--lg" linkTo [Text "Read"] ] ].

(** [export default function HomepageFeatures(): JSX.Element]. *)
Definition HomepageFeatures : M Node :=
  let! list := read_FeatureList in
  ret (Host "section" (Some (features styles))
         [ Host "div" (Some "container")
             [ Host "div" (Some "row justify-content-center")
                 (Array_map (λ props idx, FeatureElem (Some idx) props)
                            list) ] ]).

(** What the host framework makes of an element of the module's own
    component: the element stands for the result of calling [Feature] on
    its props, and the result is expanded in turn.  [Feature] only places
    its description, so expanding the description first and calling
    [Feature] on the outcome gives the same tree (see [expand_Feature])
    and keeps the recursion structural.  Theme components and host
    elements stay as they are. *)
Fixpoint expand (n : Node) : Node :=
  match n with
  | Text s => Text s
  | Fragment cs => Fragment (expand <$> cs)
  | Host t c cs => Host t c (expand <$> cs)
  | Heading a cs => Heading a (expand <$> cs)
  | Link c t cs => Link c t (expand <$> cs)
  | SvgElem i c r => SvgElem i c r
  | FeatureElem _ props =>
      Feature (mkFeatureItem (title props) (Svg props)
                             (expand (description props)) (linkTo props))
  end.

(** The calls that the host can make into the module. *)
Inductive Call : Type :=
| CallFeature (props : FeatureItem)
| CallHomepageFeatures.

Definition invoke (c : Call) : M Node :=
  match c with
  | CallFeature props => ret (Feature props)
  | CallHomepageFeatures => HomepageFeatures
  end.

Fixpoint invoke_all (cs : list Call) : M (list Node) :=
  match cs with
  | [] => ret []
  | c :: cs' =>
      let! n := invoke c in
      let! ns := invoke_all cs' in
      ret (n :: ns)
  end.

End Components.

(** ** Reading a card and a section *)

Definition headingOf (n : Node) : option (string * string) :=
  match n with
  | Heading level _ => Some (level, textContent n)
  | _ => None
  end.

Definition paragraphOf (n : Node) : option (list Node) :=
  match n with
  | Host tag _ cs => if decide (tag = "p") then Some cs else None
  | _ => None
  end.

(** Target and visible label of a link. *)
Definition linkOf (n : Node) : option (string * string) :=
  match n with
  | Link _ to _ => Some (to, textContent n)
  | _ => None
  end.

Definition iconOf (n : Node) : option SvgComponent :=
  match n with
  | SvgElem icon _ _ => Some icon
  | _ => None
  end.

(** The two boxes of a card: the one with the icon and the one with the
    heading, the description and the link. *)
Definition card_icon_box (card : Node) : option Node := children card !! 0.
Definition card_body (card : Node) : option Node := children card !! 1.

Definition card_icons (card : Node) : list SvgComponent :=
  from_option (λ box, omap iconOf (children box)) [] (card_icon_box card).

Definition card_headings (card : Node) : list (string * string) :=
  from_option (λ body, omap headingOf (children body)) [] (card_body card).

Definition card_paragraphs (card : Node) : list (list Node) :=
  from_option (λ body, omap paragraphOf (children body)) [] (card_body card).

Definition card_links (card : Node) : list (string * string) :=
  from_option (λ body, omap linkOf (children body)) [] (card_body card).

(** The description of a card: the only child of its only paragraph. *)
Definition card_description (card : Node) : option Node :=
  match card_paragraphs card with
  | [[d]] => Some d
  | _ => None
  end.

Definition keyOf (n : Node) : option nat :=
  match n with
  | FeatureElem key _ => key
  | _ => None
  end.

Definition propsOf (n : Node) : option FeatureItem :=
  match n with
  | FeatureElem _ props => Some props
  | _ => None
  end.

(** A section wraps a container, which wraps the row; the card units of
    the section are the children of that row. *)
Definition container_of (section : Node) : option Node :=
  children section !! 0.

Definition row_of (section : Node) : option Node :=
  container_of section ≫= λ container, children container !! 0.

Definition card_units (section : Node) : option (list Node) :=
  children <$> row_of section.

Definition unit_keys (section : Node) : option (list (option nat)) :=
  match card_units section with
  | Some units => Some (keyOf <$> units)
  | None => None
  end.

(** The props of the units of a section, and the headings of its cards,
    from the first unit to the last. *)
Definition unit_props (section : Node) : option (list FeatureItem) :=
  match card_units section with
  | Some units => Some (omap propsOf units)
  | None => None
  end.

Definition unit_headings (section : Node)
  : option (list (list (string * string))) :=
  match card_units section with
  | Some units => Some (card_headings <$> units)
  | None => None
  end.

(** Recognises the layout of a card: a column holding a centered box with
    one icon, and a centered box with a heading, a paragraph and a link,
    in that order. *)
Definition isCard (n : Node) : bool :=
  hasClass "col" n && hasClass "col--4" n &&
  match children n with
  | [box; body] =>
      hasClass "text--center" box && hasClass "text--center" body &&
      match children box with
      | [i] => bool_decide (is_Some (iconOf i))
      | _ => false
      end &&
      match children body with
      | [h; p; l] =>
          bool_decide (is_Some (headingOf h)) &&
          bool_decide (is_Some (paragraphOf p)) &&
          bool_decide (is_Some (linkOf l))
      | _ => false
      end
  | _ => false
  end.

(** The element that [HomepageFeatures] makes for the entry at a position:
    [<Feature key={idx} {...props} />]. *)
Definition unit_at (idx : nat) (props : FeatureItem) : Node :=
  FeatureElem (Some idx) props.

(** The item that a card was made from, read back from its heading, its
    icon, its description and its link. *)
Definition card_item (card : Node) : option FeatureItem :=
  match card_headings card, card_icons card,
        card_description card, card_links card with
  | [(_, t)], [icon], Some d, [(to, _)] => Some (mkFeatureItem t icon d to)
  | _, _, _, _ => None
  end.

(** The links of the cards of a section, from the first card to the last. *)
Definition unit_links (section : Node)
  : option (list (list (string * string))) :=
  match card_units section with
  | Some units => Some (card_links <$> units)
  | None => None
  end.

(** The visible text of a card made from an item whose description has
    the text [d]. *)
Definition card_text (title d : string) : string :=
  title +:+ d +:+ "Read".

(** ** Properties *)

Section Properties.

Variable styles : Styles.

Implicit Types (σ : Scope) (props : FeatureItem) (cs : list Call).

(** *** Evaluation on the declared list *)

Example clsx_col : clsx ["col col--4"] = "col col--4".
Proof. reflexivity. Qed.

Example clsx_skips_empty : clsx ["button"; ""; "button--lg"] = "button button--lg".
Proof. reflexivity. Qed.

Example Feature_first_entry :
  Feature styles <$> head FeatureList =
  Some
    (Host "div" (Some "col col--4")
       [ Host "div" (Some "text--center")
           [ SvgElem azure_aks_color (featureSvg styles) "img" ];
         Host "div" (Some "text--center padding-horiz--md")
           [ Heading "h3" [Text "Workload Identities in AKS"];
             Host "p" None
               [ Fragment
                   [Text "Learn how to setup your cluster for using Azure Workload Identity"] ];
             Link "button button--secondary button--lg"
                  "/docs/aks/aks-workload-identity" [Text "Read"] ] ]).
Proof. reflexivity. Qed.

Example HomepageFeatures_keys_at_load :
  unit_keys (HomepageFeatures styles module_load).1 =
  Some [Some 0; Some 1].
Proof. reflexivity. Qed.

(** *** The monad *)

Lemma bind_ret_run {A B} (a : A) (k : A → M B) σ :
  (let! x := ret a in k x) σ = k a σ.
Proof. reflexivity. Qed.

Lemma bind_run {A B} (m : M A) (k : A → M B) σ :
  (let! x := m in k x) σ = k (m σ).1 (m σ).2.
Proof. unfold bind. by destruct (m σ). Qed.

(** *** Scope preservation *)

Lemma Feature_scope props σ :
  invoke styles (CallFeature props) σ = (Feature styles props, σ).
Proof. reflexivity. Qed.

Lemma HomepageFeatures_scope σ : (HomepageFeatures styles σ).2 = σ.
Proof. reflexivity. Qed.

Lemma invoke_scope (c : Call) σ : (invoke styles c σ).2 = σ.
Proof. destruct c; [reflexivity | apply HomepageFeatures_scope]. Qed.

Lemma invoke_all_scope cs σ : (invoke_all styles cs σ).2 = σ.
Proof.
  revert σ. induction cs as [|c cs IH]; intros σ; simpl; [done|].
  rewrite !bind_run. simpl. by rewrite IH, invoke_scope.
Qed.

(** The number of results is the number of calls. *)
Lemma invoke_all_length cs σ :
  length (invoke_all styles cs σ).1 = length cs.
Proof.
  revert σ. induction cs as [|c cs IH]; intros σ; simpl; [done|].
  rewrite !bind_run. simpl. by rewrite IH.
Qed.

(** *** The row of the section *)

Lemma HomepageFeatures_row σ :
  row_of (HomepageFeatures styles σ).1 =
  Some (Host "div" (Some "row justify-content-center")
          (Array_map (λ props idx, FeatureElem (Some idx) props)
                     (FeatureList_array σ))).
Proof. reflexivity. Qed.

Lemma Array_map_lookup {A B} (f : A → nat → B) (a : list A) (idx : nat) :
  Array_map f a !! idx = (λ x, f x idx) <$> a !! idx.
Proof. unfold Array_map. apply list_lookup_imap. Qed.

Lemma Array_map_length {A B} (f : A → nat → B) (a : list A) :
  length (Array_map f a) = length a.
Proof. unfold Array_map. apply length_imap. Qed.

(** *** Expansion *)

(** Expanding an element of [Feature] is calling [Feature] on its props
    and expanding what it returns. *)
Lemma expand_Feature key props :
  expand styles (FeatureElem key props) =
  expand styles (Feature styles props).
Proof. by destruct props. Qed.

Lemma expand_Array_map (a : list FeatureItem) :
  expand styles <$>
    Array_map (λ props idx, FeatureElem (Some idx) props) a =
  (λ props, expand styles (Feature styles props)) <$> a.
Proof.
  unfold Array_map. rewrite fmap_imap.
  rewrite <- (imap_const (λ props, expand styles (Feature styles props))).
  apply imap_ext. intros idx props _. simpl.
  by rewrite <- (expand_Feature (Some idx)).
Qed.

Lemma isCard_Feature props : isCard (Feature styles props) = true.
Proof. by destruct props. Qed.

Lemma expand_card props :
  expand styles (Feature styles props) =
  Feature styles (mkFeatureItem (title props) (Svg props)
                    (expand styles (description props)) (linkTo props)).
Proof. by destruct props. Qed.

Lemma forallb_expanded_fmap (f : Node → Node) (cs : list Node) :
  Forall (λ c, expanded (f c) = true) cs →
  forallb expanded (f <$> cs) = true.
Proof.
  induction 1 as [|c cs Hc _ IH]; csimpl; [done|].
  by rewrite Hc.
Qed.

(** Expansion leaves no element of [Feature] behind. *)
Lemma expand_expanded (n : Node) : expanded (expand styles n) = true.
Proof.
  induction n as [s|cs IH|tag c cs IH|level cs IH|c to cs IH|icon c role
                 |key props IH] using Node_children_ind;
    simpl; auto using forallb_expanded_fmap.
  by rewrite IH.
Qed.

(** A list of [Feature] elements is what [feature_elements] finds in it. *)
Lemma feature_elements_all (l : list Node) :
  Forall (λ n, feature_elements n = [n]) l →
  mjoin (feature_elements <$> l) = l.
Proof.
  induction 1 as [|n l Hn _ IH]; csimpl; [done|].
  by rewrite Hn, IH.
Qed.

(** *** The section composer *)

(** C1.  Whatever the entries of the list, N say, what [HomepageFeatures]
    returns is a section that wraps a container that wraps one row, and
    nothing else; the row holds exactly N units, the unit at position
    [idx] being the [Feature] element of the entry at position [idx] with
    key [idx], and the whole tree has no other [Feature] element.  Once
    the elements are expanded the tree is the same section, container and
    row, and the row holds, in the same order, the card of each entry and
    nothing else. *)
Theorem HomepageFeatures_one_card_per_entry σ :
  let entries := FeatureList_array σ in
  let section := (HomepageFeatures styles σ).1 in
  let wrap units :=
    Host "section" (Some (features styles))
      [Host "div" (Some "container")
         [Host "div" (Some "row justify-content-center") units]] in
  ∃ cards : list Node,
    section = wrap cards
    ∧ feature_elements section = cards
    ∧ card_units section = Some cards
    ∧ length cards = length entries
    ∧ (∀ idx : nat, cards !! idx = FeatureElem (Some idx) <$> entries !! idx)
    ∧ keyOf <$> cards = Some <$> seq 0 (length entries)
    ∧ expand styles section =
      wrap ((λ props, expand styles (Feature styles props)) <$> entries)
    ∧ card_units (expand styles section) =
      Some ((λ props, expand styles (Feature styles props)) <$> entries).
Proof.
  intros entries section wrap.
  exists (Array_map (λ props idx, FeatureElem (Some idx) props) entries).
  assert (Hexpand : expand styles section =
    wrap ((λ props, expand styles (Feature styles props)) <$> entries)).
  { subst section wrap. cbn -[expand Array_map]. simpl expand.
    by rewrite expand_Array_map. }
  split_and!.
  - reflexivity.
  - subst section. cbn -[Array_map]. rewrite !app_nil_r.
    apply feature_elements_all, Forall_forall.
    intros u [idx Hu]%list_elem_of_lookup.
    rewrite Array_map_lookup in Hu.
    destruct (entries !! idx); by simplify_eq/=.
  - reflexivity.
  - apply Array_map_length.
  - intros idx. apply Array_map_lookup.
  - unfold Array_map. rewrite fmap_imap.
    apply (imap_seq_0 entries Some).
  - exact Hexpand.
  - by rewrite Hexpand.
Qed.

(** C4.  With an empty list [HomepageFeatures] returns normally: the
    section, its container and a row of class [row] without any unit;
    the list is left empty, and expansion has nothing to do. *)
Theorem HomepageFeatures_empty_list :
  let empty := mkScope [] in
  let row := Host "div" (Some "row justify-content-center") [] in
  let section :=
    Host "section" (Some (features styles))
      [Host "div" (Some "container") [row]] in
  HomepageFeatures styles empty = (section, empty)
  ∧ row_of section = Some row
  ∧ hasClass "row" row = true
  ∧ card_units section = Some []
  ∧ expand styles section = section.
Proof. by split_and!. Qed.

(** *** The card renderer *)

(** C2.  The card of an item holds, in a centered box, the icon of the
    item; its body holds one heading, of level h3, whose text is the
    title of the item, one paragraph with the description, and one link
    whose target is the [linkTo] of the item and whose label is "Read".
    So it is for the title and the link path of the spec's examples. *)
Theorem Feature_card_contents props :
  let card := Feature styles props in
  hasClass "text--center" <$> card_icon_box card = Some true
  ∧ card_icons card = [Svg props]
  ∧ card_headings card = [("h3", title props)]
  ∧ card_paragraphs card = [[description props]]
  ∧ card_links card = [(linkTo props, "Read")]
  ∧ (∀ icon d l,
       card_headings
         (Feature styles
            (mkFeatureItem "Workload Identities in AKS" icon d l)) =
       [("h3", "Workload Identities in AKS")])
  ∧ (∀ t icon d,
       card_links
         (Feature styles
            (mkFeatureItem t icon d "/docs/aks/aks-scaling")) =
       [("/docs/aks/aks-scaling", "Read")]).
Proof. destruct props. by split_and!. Qed.

(** C7.  The description of an item is found in its card as it was
    given: the body of the card has one paragraph, a [p] element without
    class, and the description is its only child, whole and unchanged. *)
Theorem Feature_description_verbatim props :
  let card := Feature styles props in
  card_description card = Some (description props)
  ∧ (card_body card ≫= λ body, children body !! 1) =
    Some (Host "p" None [description props]).
Proof. by destruct props. Qed.

(** C9.  The label of the link of a card is "Read" for every item, so
    two items, however they differ, give the same label. *)
Theorem Feature_link_label_constant props props' :
  (card_links (Feature styles props)).*2 = ["Read"]
  ∧ (card_links (Feature styles props)).*2 =
    (card_links (Feature styles props')).*2.
Proof. by destruct props, props'. Qed.

(** C10.  [Feature] returns for every title, icon, description and link
    path, in every scope, and what it returns has the layout of a card,
    the same for all inputs; expanding the card ends too, with a card in
    which no element is left to expand. *)
Theorem Feature_total (t : string) (icon : SvgComponent) (d : Node)
                      (l : string) σ :
  ∃ card : Node,
    invoke styles (CallFeature (mkFeatureItem t icon d l)) σ = (card, σ)
    ∧ isCard card = true
    ∧ isCard (expand styles card) = true
    ∧ expanded (expand styles card) = true.
Proof.
  eexists.
  split_and!; [reflexivity | apply isCard_Feature | | apply expand_expanded].
  rewrite expand_card. apply isCard_Feature.
Qed.

(** *** Purity *)

(** C3.  [Feature] gives the same card in every scope; called twice in
    a row with the same item it gives the same card twice and leaves the
    scope as it found it.  [HomepageFeatures] called twice in a row, or
    again after any other calls into the module, gives the same section
    and leaves the scope as it found it; equal trees are written out
    equally by whatever serialises them. *)
Theorem rendering_deterministic props cs σ :
  (∀ σ', (invoke styles (CallFeature props) σ).1 =
         (invoke styles (CallFeature props) σ').1)
  ∧ (let r1 := invoke styles (CallFeature props) σ in
     let r2 := invoke styles (CallFeature props) r1.2 in
     r1.1 = r2.1 ∧ r1.2 = σ ∧ r2.2 = σ)
  ∧ (let r1 := HomepageFeatures styles σ in
     let r2 := HomepageFeatures styles r1.2 in
     r1.1 = r2.1 ∧ r1.2 = σ ∧ r2.2 = σ
     ∧ ∀ serialise : Node → string,
         serialise (expand styles r1.1) = serialise (expand styles r2.1))
  ∧ (let r1 := HomepageFeatures styles σ in
     let r2 := HomepageFeatures styles (invoke_all styles cs r1.2).2 in
     r1.1 = r2.1 ∧ r2.2 = σ).
Proof.
  split_and!; try done.
  cbv zeta. by rewrite !HomepageFeatures_scope, invoke_all_scope.
Qed.

(** *** The list *)

(** C8.  The list has two entries: first the one titled "Workload
    Identities in AKS", linking to /docs/aks/aks-workload-identity, then
    the one titled "Scaling pods and nodes in AKS", linking to
    /docs/aks/aks-scaling; both have the icon azure-aks-color.svg. *)
Theorem FeatureList_entries :
  length FeatureList = 2
  ∧ title <$> FeatureList =
    ["Workload Identities in AKS"; "Scaling pods and nodes in AKS"]
  ∧ linkTo <$> FeatureList =
    ["/docs/aks/aks-workload-identity"; "/docs/aks/aks-scaling"]
  ∧ Svg <$> FeatureList =
    replicate 2 (SvgAsset "@site/static/img/azure-aks-color.svg").
Proof. by split_and!. Qed.

(** C5.  The scope made at module load holds the declared list, and no
    sequence of calls into the module changes the list of any scope.
    After any such calls [HomepageFeatures] still lays the entries out
    in the order of their declaration: the units of the row are the
    declared entries, first to last, and so are the headings of the
    expanded cards. *)
Theorem FeatureList_immutable_and_ordered cs :
  FeatureList_array module_load = FeatureList
  ∧ (∀ σ, (invoke_all styles cs σ).2 = σ)
  ∧ (let σ := (invoke_all styles cs module_load).2 in
     let section := (HomepageFeatures styles σ).1 in
     FeatureList_array σ = FeatureList
     ∧ unit_props section = Some FeatureList
     ∧ unit_headings (expand styles section) =
       Some [[("h3", "Workload Identities in AKS")];
             [("h3", "Scaling pods and nodes in AKS")]]).
Proof.
  split_and!; [done | apply invoke_all_scope |..];
    cbv zeta; by rewrite invoke_all_scope.
Qed.

End Properties.

(** ** Further properties of the components *)

Section Composition.

Variable styles : Styles.

Implicit Types (σ : Scope) (props : FeatureItem) (entries : list FeatureItem).

Example page_text_at_load :
  textContent (expand styles (HomepageFeatures styles module_load).1) =
  "Workload Identities in AKS" +:+
  "Learn how to setup your cluster for using Azure Workload Identity" +:+
  "Read" +:+
  "Scaling pods and nodes in AKS" +:+
  "Learn how to scale your AKS resources using KEDA and Cluster Autoscaler" +:+
  "Read".
Proof. reflexivity. Qed.

Example units_of_a_repeated_entry props :
  card_units (HomepageFeatures styles (mkScope [props; props])).1 =
  Some [FeatureElem (Some 0) props; FeatureElem (Some 1) props].
Proof. reflexivity. Qed.

Lemma HomepageFeatures_units entries :
  card_units (HomepageFeatures styles (mkScope entries)).1 =
  Some (imap unit_at entries).
Proof. reflexivity. Qed.

Lemma imap_unit_keys entries (k : nat) :
  keyOf <$> imap (λ idx, unit_at (k + idx)) entries =
  Some <$> seq k (length entries).
Proof.
  revert k. induction entries as [|x entries IH]; intros k; csimpl; [done|].
  rewrite Nat.add_0_r. f_equal.
  rewrite <- (IH (S k)). f_equal. apply imap_ext. intros idx props _. simpl.
  do 2 f_equal. lia.
Qed.

Lemma imap_unit_props entries (k : nat) :
  omap propsOf (imap (λ idx, unit_at (k + idx)) entries) = entries.
Proof.
  revert k. induction entries as [|x entries IH]; intros k; csimpl; [done|].
  f_equal. rewrite <- (IH (S k)) at 2. f_equal. apply imap_ext.
  intros idx props _. simpl. do 2 f_equal. lia.
Qed.

(** X1.  Whatever the list, also one that holds the same entry more than
    once, every unit of the row has a key and no two units of the row have
    the same key, so that no two units are equal. *)
Theorem HomepageFeatures_keys_distinct σ :
  ∃ units : list Node,
    card_units (HomepageFeatures styles σ).1 = Some units
    ∧ Forall (λ u, is_Some (keyOf u)) units
    ∧ NoDup (keyOf <$> units)
    ∧ NoDup units.
Proof.
  destruct σ as [entries]. eexists. split; [apply HomepageFeatures_units|].
  assert (Hkeys : keyOf <$> imap unit_at entries =
                  Some <$> seq 0 (length entries))
    by apply (imap_unit_keys entries 0).
  assert (Hnodup : NoDup (keyOf <$> imap unit_at entries)).
  { rewrite Hkeys. apply (NoDup_fmap_2 _), NoDup_seq. }
  split_and!; [| done | by eapply NoDup_fmap_1].
  apply Forall_forall. intros u [idx Hu]%list_elem_of_lookup.
  rewrite list_lookup_imap in Hu.
  destruct (entries !! idx); simplify_eq/=. by eexists.
Qed.

(** X2.  A card holds all of its item: reading the title, the icon, the
    description and the link path back from the card of an item gives the
    item. *)
Theorem Feature_card_item props :
  card_item (Feature styles props) = Some props.
Proof. by destruct props. Qed.

(** X3.  The section holds all of the list: reading the props of the units
    of the row back gives the list that [HomepageFeatures] read, entry for
    entry. *)
Theorem HomepageFeatures_unit_props σ :
  unit_props (HomepageFeatures styles σ).1 = Some (FeatureList_array σ).
Proof.
  destruct σ as [entries]. unfold unit_props.
  rewrite HomepageFeatures_units. f_equal.
  apply (imap_unit_props entries 0).
Qed.

(** X4.  Keys follow positions.  For a list made of [front] followed by
    [back], the row starts with the very units of [front] alone, keys
    included, and goes on with the units of [back], whose keys are shifted
    by the length of [front]. *)
Theorem HomepageFeatures_append front back :
  card_units (HomepageFeatures styles (mkScope (front ++ back))).1 =
  (λ units,
     (units ++ imap (λ idx, unit_at (length front + idx)) back)%list) <$>
    card_units (HomepageFeatures styles (mkScope front)).1.
Proof.
  rewrite !HomepageFeatures_units. simpl. f_equal. apply imap_app.
Qed.

Lemma expanded_units entries :
  card_units (expand styles (HomepageFeatures styles (mkScope entries)).1) =
  Some ((λ props, expand styles (Feature styles props)) <$> entries).
Proof.
  cbn -[expand Array_map]. simpl expand. cbn -[expand Array_map].
  f_equal. apply expand_Array_map.
Qed.

(** X5.  On the expanded page, whatever the list, every unit of the row
    is a card, and from the first card to the last the headings are the
    titles of the entries, at level h3, and the links lead to the link
    paths of the entries under the label "Read": the components add no
    card, heading or link of their own and drop none. *)
Theorem page_cards_follow_entries σ :
  let entries := FeatureList_array σ in
  let page := expand styles (HomepageFeatures styles σ).1 in
  ∃ cards : list Node,
    card_units page = Some cards
    ∧ Forall (λ card, isCard card = true) cards
    ∧ unit_headings page = Some ((λ props, [("h3", title props)]) <$> entries)
    ∧ unit_links page =
      Some ((λ props, [(linkTo props, "Read")]) <$> entries).
Proof.
  destruct σ as [entries]. cbv zeta. simpl FeatureList_array.
  unfold unit_headings, unit_links. rewrite expanded_units.
  eexists. split_and!; [done |..].
  - apply Forall_fmap, Forall_true. intros props. simpl.
    rewrite expand_card. apply isCard_Feature.
  - f_equal. rewrite <- list_fmap_compose. apply list_fmap_ext.
    intros _ props _. simpl. rewrite expand_card. reflexivity.
  - f_equal. rewrite <- list_fmap_compose. apply list_fmap_ext.
    intros _ props _. simpl. rewrite expand_card. reflexivity.
Qed.

Lemma textContent_Feature props :
  textContent (Feature styles props) =
  card_text (title props) (textContent (description props)).
Proof. by destruct props. Qed.

(** X6.  The text of the expanded page is the text of its cards, one after
    the other in the order of the list, and the text of a card is the
    title of its entry, then the text of its description, then "Read";
    the icon and the link path of an entry add nothing to the text. *)
Theorem page_text σ :
  textContent (expand styles (HomepageFeatures styles σ).1) =
  String.concat ""
    ((λ props,
        card_text (title props)
                  (textContent (expand styles (description props)))) <$>
       FeatureList_array σ).
Proof.
  destruct σ as [entries]. cbn -[expand Array_map textContent].
  simpl expand. simpl textContent. rewrite expand_Array_map.
  f_equal. rewrite <- list_fmap_compose. apply list_fmap_ext.
  intros _ props _. simpl. rewrite expand_card.
  apply textContent_Feature.
Qed.

End Composition.
